(** * querymd: the SQL query builder of [builder.py]

    A shallow embedding of the fragment classes ([TimeGrain], [Slice],
    [Measure], [Ratio], [Filter]) and of [QueryBuilder].  Python strings are
    [string], [None]-able attributes are [option]s, the [components] dict,
    whose five keys are fixed by [__init__], is a record, raised exceptions
    are values of [exn], and the methods of [QueryBuilder], which read and
    mutate [self], are computations of a state-and-exception monad. *)

From Stdlib Require Import String Ascii List ZArith Bool DecimalString Lia.
Import ListNotations.
Local Open Scope string_scope.

(** ** Python strings, values and exceptions *)

(** The two characters that a string literal of this file cannot hold. *)
Definition nl : string := String "010"%char EmptyString.
Definition dq : string := String "034"%char EmptyString.

(** [sep.join(parts)]. *)
Definition join (sep : string) (parts : list string) : string :=
  String.concat sep parts.

(** [range(n)]. *)
Definition range (n : nat) : list nat := seq 0 n.

(** [str(n)] for a non-negative [int]. *)
Definition str (n : nat) : string := NilEmpty.string_of_uint (Nat.to_uint n).

(** The exceptions that the code raises, with their messages. *)
Inductive exn : Type :=
| ValueError (msg : string)
| AttributeError (msg : string).

Inductive result (A : Type) : Type :=
| Ok (a : A)
| Raise (e : exn).
Arguments Ok {A} a.
Arguments Raise {A} e.

(** What a caller may hand over as the [value] of a [Filter]: the code never
    checks it beyond [isinstance(value, list)], so the model keeps the
    elements dynamically typed.  Elements are atoms; containers are a list
    or a tuple of atoms. *)
Inductive pyatom : Type :=
| PNone
| PBool (b : bool)
| PInt (z : Z)
| PStr (s : string).

Inductive pyval : Type :=
| PAtom (a : pyatom)
| PList (items : list pyatom)
| PTuple (items : list pyatom).

(** The decimal digits of an [int], without its sign. *)
Definition digits (z : Z) : string :=
  NilEmpty.string_of_uint (N.to_uint (Z.abs_N z)).

(** [sys.get_int_max_str_digits()], at its default: CPython converts no
    [int] of more digits to a string. *)
Definition int_max_str_digits : N := 4300.

Definition ExceedsIntMaxStrDigits : exn :=
  ValueError
    "Exceeds the limit (4300 digits) for integer string conversion; use sys.set_int_max_str_digits() to increase the limit".

(** An item interpolated in an f-string with an empty format spec: this is
    [str(v)] for these types, which raises for an [int] of too many
    digits. *)
Definition format (v : pyatom) : result string :=
  match v with
  | PNone => Ok "None"
  | PBool true => Ok "True"
  | PBool false => Ok "False"
  | PInt z =>
      if (int_max_str_digits <? N.of_nat (String.length (digits z)))%N
      then Raise ExceedsIntMaxStrDigits
      else Ok (NilEmpty.string_of_int (Z.to_int z))
  | PStr s => Ok s
  end.

(** [isinstance(v, list)]. *)
Definition isinstance_list (v : pyval) : bool :=
  match v with
  | PList _ => true
  | _ => false
  end.

(** The items that [for v in value] goes through. *)
Definition items_of (v : pyval) : list pyatom :=
  match v with
  | PAtom _ => []
  | PList items | PTuple items => items
  end.

(** [a or b] for an optional string [a] and a string [b]: [None] and the
    empty string are falsy. *)
Definition py_or (a : option string) (b : string) : string :=
  match a with
  | None | Some EmptyString => b
  | Some s => s
  end.

(** A list comprehension whose body may raise: the items are evaluated from
    left to right and the first exception ends the evaluation. *)
Fixpoint comprehension {A B : Type} (f : A -> result B) (l : list A)
  : result (list B) :=
  match l with
  | [] => Ok []
  | x :: l' =>
      match f x with
      | Raise e => Raise e
      | Ok y =>
          match comprehension f l' with
          | Raise e => Raise e
          | Ok ys => Ok (y :: ys)
          end
      end
  end.

(** ** The fragment classes *)

Module TimeGrain.
Record t : Type := init { column : string; grain : string; nice_name : string }.

Definition to_sql (self : t) : string :=
  "date_trunc('" ++ grain self ++ "', " ++ column self ++ ") AS "
    ++ dq ++ nice_name self ++ dq.
End TimeGrain.

Module Slice.
Record t : Type := mk { column : string; nice_name : string }.

(** [__init__(self, column, nice_name=None)]. *)
Definition init (column : string) (nice_name : option string) : t :=
  {| column := column; nice_name := py_or nice_name column |}.

Definition to_sql (self : t) : string :=
  column self ++ " AS " ++ dq ++ nice_name self ++ dq.
End Slice.

Module Measure.
Record t : Type := init { expression : string; nice_name : string }.

Definition to_sql (self : t) : string :=
  expression self ++ " AS " ++ dq ++ nice_name self ++ dq.
End Measure.

Module Ratio.
Record t : Type :=
  init { numerator : string; denominator : string; nice_name : string }.

Definition to_sql (self : t) : string :=
  "(" ++ numerator self ++ ") / NULLIF(" ++ denominator self ++ ", 0) AS "
    ++ dq ++ nice_name self ++ dq.
End Ratio.

Module Filter.
(** [__init__(self, column, value=None, filter_type="list",
    custom_expression=None)]: an omitted [value] is [PAtom PNone], an
    omitted [custom_expression] is [None]. *)
Record t : Type := init {
  column : string;
  value : pyval;
  filter_type : string;
  custom_expression : option string
}.

(** The body [f"'{v}'"] of the comprehension of [to_sql]. *)
Definition quoted (v : pyatom) : result string :=
  match format v with
  | Raise e => Raise e
  | Ok s => Ok ("'" ++ s ++ "'")
  end.

Definition to_sql (self : t) : result string :=
  if filter_type self =? "list" then
    if negb (isinstance_list (value self)) then
      Raise (ValueError "Value must be a list for 'list' filter type.")
    else
      match comprehension quoted (items_of (value self)) with
      | Raise e => Raise e
      | Ok parts =>
          let formatted_values := join ", " parts in
          Ok (column self ++ " IN (" ++ formatted_values ++ ")" ++ nl)
      end
  else if filter_type self =? "custom" then
    match custom_expression self with
    | None | Some EmptyString =>
        Raise (ValueError
          "Custom expression must be provided for 'custom' filter type.")
    | Some expr => Ok expr
    end
  else
    Raise (ValueError "Unsupported filter type.").
End Filter.

(** ** The builder *)

Module QueryBuilder.
(** [self.components]: a dict with the five keys that [__init__] gives it;
    no method adds or deletes a key. *)
Record components_t : Type := mk_components {
  time_grain : option TimeGrain.t;
  slices : list Slice.t;
  measures : list Measure.t;
  ratios : list Ratio.t;
  filters : list Filter.t
}.

Record t : Type := mk { table : string; components : components_t }.

Definition init (table : string) : t :=
  {| table := table;
     components := {| time_grain := None; slices := []; measures := [];
                      ratios := []; filters := [] |} |}.

(** Assignments to one attribute or to one key of [components]. *)
Definition with_table (v : string) (self : t) : t :=
  {| table := v; components := components self |}.

Definition with_components (f : components_t -> components_t) (self : t) : t :=
  {| table := table self; components := f (components self) |}.

Definition with_time_grain (v : option TimeGrain.t) (c : components_t) :=
  {| time_grain := v; slices := slices c; measures := measures c;
     ratios := ratios c; filters := filters c |}.

Definition with_slices (v : list Slice.t) (c : components_t) :=
  {| time_grain := time_grain c; slices := v; measures := measures c;
     ratios := ratios c; filters := filters c |}.

Definition with_measures (v : list Measure.t) (c : components_t) :=
  {| time_grain := time_grain c; slices := slices c; measures := v;
     ratios := ratios c; filters := filters c |}.

Definition with_ratios (v : list Ratio.t) (c : components_t) :=
  {| time_grain := time_grain c; slices := slices c; measures := measures c;
     ratios := v; filters := filters c |}.

Definition with_filters (v : list Filter.t) (c : components_t) :=
  {| time_grain := time_grain c; slices := slices c; measures := measures c;
     ratios := ratios c; filters := v |}.

(** A method body: it runs on the state of [self] and ends with a value
    or an exception, and with the state of [self] as it has left it (what
    was mutated before a [raise] stays mutated). *)
Definition M (A : Type) : Type := t -> result A * t.

Definition ret {A : Type} (a : A) : M A := fun self => (Ok a, self).

Definition bind {A B : Type} (m : M A) (k : A -> M B) : M B :=
  fun self =>
    match m self with
    | (Ok a, self') => k a self'
    | (Raise e, self') => (Raise e, self')
    end.

Definition get : M t := fun self => (Ok self, self).

Definition modify (f : t -> t) : M unit := fun self => (Ok tt, f self).

Definition raise {A : Type} (e : exn) : M A := fun self => (Raise e, self).

(** The value of an expression that reads no state. *)
Definition eval {A : Type} (r : result A) : M A := fun self => (r, self).

Declare Scope method_scope.
Delimit Scope method_scope with method.
Notation "x <- m ;; k" := (bind m (fun x => k))
  (at level 61, m at next level, right associativity) : method_scope.
Notation "m ;; k" := (bind m (fun _ => k))
  (at level 61, right associativity) : method_scope.
Local Open Scope method_scope.

(** The mutators end with [return self]: the object they return is the
    one whose state the computation leaves, so their value is [tt] and a
    chain [b.f(x).g(y)] is [f x ;; g y]. *)

Definition set_table_name (new_table_name : string) : M unit :=
  modify (with_table new_table_name).

Definition set_time_grain (time_grain : TimeGrain.t) : M unit :=
  modify (with_components (with_time_grain (Some time_grain))).

Definition add_slice (slice : Slice.t) : M unit :=
  modify (with_components (fun c => with_slices (slices c ++ [slice])%list c)).

Definition add_measure (measure : Measure.t) : M unit :=
  self <- get ;;
  match measures (components self) with
  | [] =>
      modify (with_components (fun c => with_measures (measures c ++ [measure])%list c))
  | _ :: _ =>
      modify (with_components (fun c => with_measures (measures c ++ [measure])%list c))
  end.

Definition add_ratio (ratio : Ratio.t) : M unit :=
  modify (with_components (fun c => with_ratios (ratios c ++ [ratio])%list c)).

Definition add_filter (filter : Filter.t) : M unit :=
  modify (with_components (fun c => with_filters (filters c ++ [filter])%list c)).

(** The loop of [remove_component] over ["slices"], ["measures"] and
    ["ratios"], one assignment per key. *)
Definition remove_from_lists (nice_name : string) : M unit :=
  modify (with_components (fun c =>
    with_slices
      (filter (fun component => negb (Slice.nice_name component =? nice_name))
              (slices c)) c)) ;;
  modify (with_components (fun c =>
    with_measures
      (filter (fun component => negb (Measure.nice_name component =? nice_name))
              (measures c)) c)) ;;
  modify (with_components (fun c =>
    with_ratios
      (filter (fun component => negb (Ratio.nice_name component =? nice_name))
              (ratios c)) c)).

Definition remove_component (nice_name : string) : M unit :=
  self <- get ;;
  match time_grain (components self) with
  | Some tg =>
      if TimeGrain.nice_name tg =? nice_name then
        (* ends here, with [return self] *)
        modify (with_components (with_time_grain None))
      else remove_from_lists nice_name
  | None => remove_from_lists nice_name
  end.

Definition compile : M string :=
  self <- get ;;
  let c := components self in
  time_grain_sql <-
    match time_grain c with
    | Some tg => ret (TimeGrain.to_sql tg)
    | None => raise (AttributeError "'NoneType' object has no attribute 'to_sql'")
    end ;;
  let select_parts :=
    ([time_grain_sql] ++ map Slice.to_sql (slices c)
       ++ map Measure.to_sql (measures c) ++ map Ratio.to_sql (ratios c))%list in
  filter_sqls <- eval (comprehension Filter.to_sql (filters c)) ;;
  let where_parts := (["TRUE"] ++ filter_sqls)%list in
  let group_by_parts :=
    (["1"] ++ map (fun i => str (i + 2)) (range (length (slices c))))%list in
  let order_by_parts :=
    (["1 DESC"] ++ map (fun i => str (i + 2)) (range (length (slices c))))%list in
  let select_clause := "SELECT" ++ nl ++ "  " ++ join ("," ++ nl ++ "  ") select_parts in
  let from_clause := "FROM " ++ table self in
  let where_clause := "WHERE " ++ join (" AND" ++ nl ++ "  ") where_parts in
  let group_by_clause := "GROUP BY " ++ join ", " group_by_parts in
  let order_by_clause := "ORDER BY " ++ join ", " order_by_parts in
  let query :=
    join nl [select_clause; from_clause; where_clause; group_by_clause;
             order_by_clause] in
  ret query.
End QueryBuilder.

(** ** The vocabulary of the specification *)

Import QueryBuilder.
Local Open Scope method_scope.

(** The specification names the failures by their cause; the code raises
    these exceptions for them. *)
Definition InvalidFilterValue : exn :=
  ValueError "Value must be a list for 'list' filter type.".

Definition MissingTimeGrain : exn :=
  AttributeError "'NoneType' object has no attribute 'to_sql'".

(** A sequence of strings, as the specification types the value of a list
    filter: a list all of whose items are strings. *)
Definition is_str (v : pyatom) : bool :=
  match v with
  | PStr _ => true
  | _ => false
  end.

Definition is_sequence_of_strings (v : pyval) : bool :=
  match v with
  | PList items => forallb is_str items
  | _ => false
  end.

(** A filter renders when [to_sql] returns a string. *)
Definition renders (f : Filter.t) : Prop :=
  exists sql, Filter.to_sql f = Ok sql.

(** [addMeasure] as the specification wants it written: always append. *)
Definition add_measure_append (measure : Measure.t) : M unit :=
  modify (with_components (fun c => with_measures (measures c ++ [measure])%list c)).

(** The positions [2, 3, ..., 1 + n] of the slices in the SELECT list. *)
Definition slice_positions (n : nat) : list string := map str (seq 2 n).

(** The builder of the end-to-end example:
    [QueryBuilder("events").set_time_grain(TimeGrain("ts", "day", "day"))
       .add_slice(Slice("country")).add_measure(Measure("count(*)", "total"))
       .add_filter(Filter("status", ["ok"]))]. *)
Definition events_builder : t :=
  snd ((set_time_grain (TimeGrain.init "ts" "day" "day") ;;
        add_slice (Slice.init "country" None) ;;
        add_measure (Measure.init "count(*)" "total") ;;
        add_filter (Filter.init "status" (PList [PStr "ok"]) "list" None))
         (init "events")).

Definition events_query : string :=
  "SELECT" ++ nl ++
  "  date_trunc('day', ts) AS " ++ dq ++ "day" ++ dq ++ "," ++ nl ++
  "  country AS " ++ dq ++ "country" ++ dq ++ "," ++ nl ++
  "  count(*) AS " ++ dq ++ "total" ++ dq ++ nl ++
  "FROM events" ++ nl ++
  "WHERE TRUE AND" ++ nl ++
  "  status IN ('ok')" ++ nl ++
  nl ++
  "GROUP BY 1, 2" ++ nl ++
  "ORDER BY 1 DESC, 2".

(** A builder whose time grain and whose only slice carry the same label:
    [QueryBuilder("events").set_time_grain(TimeGrain("ts", "day", "day"))
       .add_slice(Slice("day"))]. *)
Definition day_day_builder : t :=
  snd ((set_time_grain (TimeGrain.init "ts" "day" "day") ;;
        add_slice (Slice.init "day" None))
         (init "events")).

(** ** Sequences of method calls *)

(** One call of a public method of [QueryBuilder], with its arguments. *)
Inductive call : Type :=
| SetTableName (new_table_name : string)
| SetTimeGrain (time_grain : TimeGrain.t)
| AddSlice (slice : Slice.t)
| AddMeasure (measure : Measure.t)
| AddRatio (ratio : Ratio.t)
| AddFilter (filter : Filter.t)
| RemoveComponent (nice_name : string)
| Compile.

(** The state in which a call leaves the builder, whether it returns or
    raises. *)
Definition run_call (c : call) (self : t) : t :=
  match c with
  | SetTableName new_table_name => snd (set_table_name new_table_name self)
  | SetTimeGrain time_grain => snd (set_time_grain time_grain self)
  | AddSlice slice => snd (add_slice slice self)
  | AddMeasure measure => snd (add_measure measure self)
  | AddRatio ratio => snd (add_ratio ratio self)
  | AddFilter filter => snd (add_filter filter self)
  | RemoveComponent nice_name => snd (remove_component nice_name self)
  | Compile => snd (compile self)
  end.

Definition run_calls (cs : list call) (self : t) : t :=
  fold_left (fun s c => run_call c s) cs self.

(** The arguments of the [add_filter] calls of a sequence, in call order. *)
Definition filters_added (cs : list call) : list Filter.t :=
  flat_map (fun c => match c with AddFilter filter => [filter] | _ => [] end) cs.

(** No component of the builder that [remove_component] looks at carries
    the label. *)
Definition unlabelled (nice_name : string) (self : t) : Prop :=
  (forall tg, time_grain (components self) = Some tg ->
              TimeGrain.nice_name tg <> nice_name)
  /\ Forall (fun c => Slice.nice_name c <> nice_name) (slices (components self))
  /\ Forall (fun c => Measure.nice_name c <> nice_name) (measures (components self))
  /\ Forall (fun c => Ratio.nice_name c <> nice_name) (ratios (components self)).

(** ** Strings and joins *)

Lemma append_assoc (a b c : string) : (a ++ b) ++ c = a ++ b ++ c.
Proof.
  induction a as [|ch a IH]; simpl.
  - reflexivity.
  - now rewrite IH.
Qed.

Lemma join_cons (sep x y : string) (l : list string) :
  join sep (x :: y :: l) = x ++ sep ++ join sep (y :: l).
Proof. reflexivity. Qed.

(** ** The fragments *)

(** C8: a ratio renders as [(a) / NULLIF(b, 0) AS "r"]. *)
Theorem ratio_to_sql (a b r : string) :
  Ratio.to_sql (Ratio.init a b r)
    = "(" ++ a ++ ") / NULLIF(" ++ b ++ ", 0) AS " ++ dq ++ r ++ dq
  /\ Ratio.to_sql (Ratio.init "a" "b" "r")
    = "(a) / NULLIF(b, 0) AS " ++ dq ++ "r" ++ dq.
Proof. split; reflexivity. Qed.

(** C10: a slice built with an empty label takes its column as label, as a
    slice built without label does, and renders as [c AS "c"]. *)
Theorem slice_empty_label_is_column (c : string) :
  Slice.to_sql (Slice.init c (Some EmptyString)) = c ++ " AS " ++ dq ++ c ++ dq
  /\ Slice.init c (Some EmptyString) = Slice.init c None.
Proof. split; reflexivity. Qed.

Lemma join_quoted (v : string) (rest : list string) :
  join ", " (map (fun v => "'" ++ v ++ "'") (v :: rest))
    = "'" ++ v ++ String.concat EmptyString (map (fun w => "', '" ++ w) rest) ++ "'".
Proof.
  revert v; induction rest as [|w rest IH]; intros v.
  - reflexivity.
  - specialize (IH w). cbn [map] in IH |- *.
    rewrite join_cons, IH.
    destruct rest as [|w' rest]; cbn [map String.concat];
      rewrite !append_assoc; reflexivity.
Qed.

Lemma comprehension_quoted_strings (l : list string) :
  comprehension Filter.quoted (map PStr l)
    = Ok (map (fun v => "'" ++ v ++ "'") l).
Proof.
  induction l as [|v l IH]; cbn [map comprehension].
  - reflexivity.
  - unfold Filter.quoted at 1. cbn [format]. now rewrite IH.
Qed.

(** C7: a list filter on column [c] with the strings [v1, ..., vk] renders
    as [c IN ('v1', ..., 'vk')] followed by a newline. *)
Theorem list_filter_to_sql (c v1 : string) (rest : list string)
    (custom_expression : option string) :
  Filter.to_sql (Filter.init c (PList (map PStr (v1 :: rest))) "list" custom_expression)
    = Ok (c ++ " IN ('" ++ v1
            ++ String.concat EmptyString (map (fun v => "', '" ++ v) rest)
            ++ "')" ++ nl)
  /\ Filter.to_sql (Filter.init "x" (PList [PStr "1"; PStr "2"]) "list" None)
    = Ok ("x IN ('1', '2')" ++ nl).
Proof.
  split; [|reflexivity].
  unfold Filter.to_sql.
  cbn [Filter.filter_type Filter.value Filter.column isinstance_list negb items_of].
  change ("list" =? "list") with true. cbv iota.
  rewrite comprehension_quoted_strings, (join_quoted v1 rest).
  f_equal. rewrite !append_assoc. reflexivity.
Qed.

(** ** The builder *)

(** C1: the end-to-end example compiles to the query of the specification. *)
Theorem compile_events_builder :
  compile events_builder = (Ok events_query, events_builder).
Proof. reflexivity. Qed.

(** C9: [add_measure], with its branch on the measures being empty, is the
    same state transformer as the plain append. *)
Theorem add_measure_is_append (measure : Measure.t) (self : t) :
  add_measure measure self = add_measure_append measure self.
Proof.
  unfold add_measure, add_measure_append, bind, get.
  destruct (measures (components self)); reflexivity.
Qed.

(** *** Removal by label *)

(** When the time grain carries the label, [remove_component] clears it and
    returns at once: the three lists stay as they are. *)
Lemma remove_component_time_grain (nice_name : string) (self : t) (tg : TimeGrain.t) :
  time_grain (components self) = Some tg ->
  TimeGrain.nice_name tg = nice_name ->
  remove_component nice_name self
    = (Ok tt, with_components (with_time_grain None) self).
Proof.
  intros Htg Hname. unfold remove_component, bind, get.
  rewrite Htg, Hname, String.eqb_refl. reflexivity.
Qed.

(** When the time grain is absent or carries another label, the entries
    with the label leave the slices, the measures and the ratios; the time
    grain, the filters and the table stay. *)
Lemma remove_component_lists (nice_name : string) (self : t) :
  (forall tg, time_grain (components self) = Some tg ->
              TimeGrain.nice_name tg <> nice_name) ->
  remove_component nice_name self
    = (Ok tt,
       {| table := table self;
          components :=
            {| time_grain := time_grain (components self);
               slices :=
                 filter (fun c => negb (Slice.nice_name c =? nice_name))
                        (slices (components self));
               measures :=
                 filter (fun c => negb (Measure.nice_name c =? nice_name))
                        (measures (components self));
               ratios :=
                 filter (fun c => negb (Ratio.nice_name c =? nice_name))
                        (ratios (components self));
               filters := filters (components self) |} |}).
Proof.
  intros Htg. unfold remove_component, bind, get.
  destruct (time_grain (components self)) as [tg|] eqn:E.
  - destruct (String.eqb_spec (TimeGrain.nice_name tg) nice_name) as [Heq|_].
    + now destruct (Htg tg eq_refl).
    + rewrite <- E. reflexivity.
  - rewrite <- E. reflexivity.
Qed.

(** When no label matches, nothing changes and nothing is raised. *)
Lemma remove_component_no_match (nice_name : string) (self : t) :
  (forall tg, time_grain (components self) = Some tg ->
              TimeGrain.nice_name tg <> nice_name) ->
  Forall (fun c => Slice.nice_name c <> nice_name) (slices (components self)) ->
  Forall (fun c => Measure.nice_name c <> nice_name) (measures (components self)) ->
  Forall (fun c => Ratio.nice_name c <> nice_name) (ratios (components self)) ->
  remove_component nice_name self = (Ok tt, self).
Proof.
  intros Htg Hs Hm Hr.
  rewrite (remove_component_lists nice_name self Htg).
  rewrite !forallb_filter_id.
  - destruct self as [tbl [tg ss ms rs fs]]; reflexivity.
  - apply forallb_forall. rewrite Forall_forall in Hr. intros c Hc.
    apply negb_true_iff, String.eqb_neq. now apply Hr.
  - apply forallb_forall. rewrite Forall_forall in Hm. intros c Hc.
    apply negb_true_iff, String.eqb_neq. now apply Hm.
  - apply forallb_forall. rewrite Forall_forall in Hs. intros c Hc.
    apply negb_true_iff, String.eqb_neq. now apply Hs.
Qed.

(** C2: on a builder whose time grain and whose slice are both labelled
    [day], [remove_component "day"] clears the time grain and returns before
    the lists are filtered, so the slice labelled [day] is still there. *)
Theorem remove_component_day_keeps_slice :
  remove_component "day" day_day_builder
    = (Ok tt, with_components (with_time_grain None) day_day_builder)
  /\ slices (components (snd (remove_component "day" day_day_builder)))
    = [Slice.init "day" None]
  /\ Slice.nice_name (Slice.init "day" None) = "day".
Proof. repeat split. Qed.

(** *** Filters *)

Lemma format_raises (v : pyatom) (e : exn) :
  format v = Raise e -> e = ExceedsIntMaxStrDigits.
Proof.
  destruct v as [|[|]|z|s]; cbn [format]; try discriminate.
  destruct (int_max_str_digits <? N.of_nat (String.length (digits z)))%N;
    [now intros [= <-] | discriminate].
Qed.

Lemma quoted_raises (v : pyatom) (e : exn) :
  Filter.quoted v = Raise e -> e = ExceedsIntMaxStrDigits.
Proof.
  unfold Filter.quoted. destruct (format v) as [s|e'] eqn:E; [discriminate|].
  intros [= <-]. exact (format_raises v e' E).
Qed.

Lemma comprehension_raises {A B : Type} (f : A -> result B) (l : list A)
    (e : exn) :
  comprehension f l = Raise e -> exists x, In x l /\ f x = Raise e.
Proof.
  induction l as [|x l IH]; cbn [comprehension]; [discriminate|].
  destruct (f x) as [y|e'] eqn:Hx.
  - destruct (comprehension f l) as [ys|e'']; [discriminate|].
    intros [= <-]. destruct (IH eq_refl) as (x' & Hin & Hx').
    exists x'. split; [now right | assumption].
  - intros [= <-]. exists x. split; [now left | assumption].
Qed.

Lemma strings_are_map_PStr (items : list pyatom) :
  forallb is_str items = true -> exists l, items = map PStr l.
Proof.
  induction items as [|v items IH]; cbn [forallb].
  - intros _. now exists [].
  - intros [Hv Hitems]%andb_prop. destruct (IH Hitems) as [l ->].
    destruct v as [|b|z|s]; try discriminate Hv. now exists (s :: l).
Qed.

Lemma list_filter_raises_iff (f : Filter.t) :
  Filter.filter_type f = "list" ->
  (Filter.to_sql f = Raise InvalidFilterValue
   <-> isinstance_list (Filter.value f) = false).
Proof.
  intros Hkind. unfold Filter.to_sql. rewrite Hkind, String.eqb_refl.
  destruct (isinstance_list (Filter.value f)); cbn [negb].
  - split; [|discriminate].
    destruct (comprehension Filter.quoted (items_of (Filter.value f)))
      as [parts|e] eqn:E; [discriminate|].
    intros [= ->]. apply comprehension_raises in E as (v & _ & Hv).
    apply quoted_raises in Hv. discriminate Hv.
  - split; reflexivity.
Qed.

Lemma list_filter_of_strings_renders (f : Filter.t) :
  Filter.filter_type f = "list" ->
  is_sequence_of_strings (Filter.value f) = true ->
  renders f.
Proof.
  intros Hkind Hstrings. unfold renders, Filter.to_sql.
  rewrite Hkind, String.eqb_refl.
  destruct (Filter.value f) as [a|items|items]; try discriminate Hstrings.
  cbn [is_sequence_of_strings] in Hstrings.
  destruct (strings_are_map_PStr items Hstrings) as [l ->].
  cbn [isinstance_list negb items_of].
  rewrite comprehension_quoted_strings. eexists; reflexivity.
Qed.

(** C4, as the code has it: a list filter raises [InvalidFilterValue]
    exactly when its value is not a [list], whatever the items of a list
    are; a list of strings renders. *)
Theorem list_filter_value_check (f : Filter.t) :
  Filter.filter_type f = "list" ->
  (Filter.to_sql f = Raise InvalidFilterValue
   <-> isinstance_list (Filter.value f) = false)
  /\ (is_sequence_of_strings (Filter.value f) = true -> renders f).
Proof.
  intros Hkind. split.
  - now apply list_filter_raises_iff.
  - now apply list_filter_of_strings_renders.
Qed.

Lemma list_filter_value_check_strings :
  let f := Filter.init "x" (PList [PStr "1"; PStr "2"]) "list" None in
  (Filter.to_sql f = Raise InvalidFilterValue
   <-> isinstance_list (Filter.value f) = false)
  /\ (is_sequence_of_strings (Filter.value f) = true -> renders f).
Proof.
  exact (list_filter_value_check
           (Filter.init "x" (PList [PStr "1"; PStr "2"]) "list" None) eq_refl).
Defined.

(** C4, as the specification has it, fails on a list of integers: it is not
    a sequence of strings, and the filter renders instead of raising. *)
Lemma list_filter_of_ints_renders :
  let f := Filter.init "x" (PList [PInt 1; PInt 2]) "list" None in
  Filter.filter_type f = "list"
  /\ is_sequence_of_strings (Filter.value f) = false
  /\ Filter.to_sql f = Ok ("x IN ('1', '2')" ++ nl)
  /\ ~ (Filter.to_sql f = Raise InvalidFilterValue
        <-> is_sequence_of_strings (Filter.value f) = false).
Proof.
  cbv zeta. repeat split.
  intros [_ Hraise]. specialize (Hraise eq_refl). discriminate Hraise.
Qed.

(** *** Compilation *)

Lemma comprehension_ok {A B : Type} (f : A -> result B) (l : list A) :
  Forall (fun x => exists y, f x = Ok y) l ->
  exists ys, comprehension f l = Ok ys.
Proof.
  induction 1 as [|x l [y Hy] _ [ys Hys]]; cbn [comprehension].
  - now exists [].
  - rewrite Hy, Hys. now exists (y :: ys).
Qed.

Lemma comprehension_ok_inv {A B : Type} (f : A -> result B) (l : list A)
    (ys : list B) :
  comprehension f l = Ok ys ->
  Forall (fun x => exists y, f x = Ok y) l.
Proof.
  revert ys; induction l as [|x l IH]; intros ys; cbn [comprehension].
  - constructor.
  - destruct (f x) as [y|e] eqn:Hx; [|discriminate].
    destruct (comprehension f l) as [ys'|e] eqn:Hl; [|discriminate].
    intros _. constructor; [now exists y | now apply (IH ys')].
Qed.

Lemma positions_of_range (n : nat) :
  map (fun i => str (i + 2)) (range n) = slice_positions n.
Proof.
  unfold range, slice_positions.
  rewrite <- (seq_shift n 1), <- (seq_shift n 0), !map_map.
  apply map_ext. intros i. now rewrite Nat.add_comm.
Qed.

(** Without a time grain, [compile] raises at its first expression. *)
Lemma compile_no_time_grain (self : t) :
  time_grain (components self) = None ->
  compile self = (Raise MissingTimeGrain, self).
Proof.
  intros Htg. unfold compile, bind, get, raise. rewrite Htg. reflexivity.
Qed.

(** With a time grain and filters that render, [compile] returns the five
    clauses, joined by newlines. *)
Lemma compile_ok (self : t) (tg : TimeGrain.t) (filter_sqls : list string) :
  time_grain (components self) = Some tg ->
  comprehension Filter.to_sql (filters (components self)) = Ok filter_sqls ->
  compile self
    = (Ok (join nl
             [ "SELECT" ++ nl ++ "  "
                 ++ join ("," ++ nl ++ "  ")
                      (TimeGrain.to_sql tg
                         :: map Slice.to_sql (slices (components self))
                         ++ map Measure.to_sql (measures (components self))
                         ++ map Ratio.to_sql (ratios (components self)))%list;
               "FROM " ++ table self;
               "WHERE " ++ join (" AND" ++ nl ++ "  ") ("TRUE" :: filter_sqls);
               "GROUP BY "
                 ++ join ", " ("1" :: slice_positions (length (slices (components self))));
               "ORDER BY "
                 ++ join ", " ("1 DESC" :: slice_positions (length (slices (components self)))) ]),
       self).
Proof.
  intros Htg Hfs. unfold compile, bind, get, ret, eval.
  rewrite Htg, Hfs, positions_of_range. reflexivity.
Qed.

(** A filter that raises makes [compile] raise the same exception. *)
Lemma compile_filter_raises (self : t) (tg : TimeGrain.t) (e : exn) :
  time_grain (components self) = Some tg ->
  comprehension Filter.to_sql (filters (components self)) = Raise e ->
  compile self = (Raise e, self).
Proof.
  intros Htg Hfs. unfold compile, bind, get, ret, eval.
  rewrite Htg, Hfs. reflexivity.
Qed.

(** [compile] only reads the builder. *)
Lemma compile_state (self : t) : snd (compile self) = self.
Proof.
  destruct (time_grain (components self)) as [tg|] eqn:Htg.
  - destruct (comprehension Filter.to_sql (filters (components self)))
      as [filter_sqls|e] eqn:Hfs.
    + now rewrite (compile_ok self tg filter_sqls Htg Hfs).
    + now rewrite (compile_filter_raises self tg e Htg Hfs).
  - now rewrite (compile_no_time_grain self Htg).
Qed.

(** When [compile] returns, the time grain is set and the filters render. *)
Lemma compile_ok_inv (self self' : t) (query : string) :
  compile self = (Ok query, self') ->
  time_grain (components self) <> None
  /\ Forall renders (filters (components self)).
Proof.
  intros Hc.
  destruct (time_grain (components self)) as [tg|] eqn:Htg.
  - split; [discriminate|].
    destruct (comprehension Filter.to_sql (filters (components self)))
      as [filter_sqls|e] eqn:Hfs.
    + exact (comprehension_ok_inv _ _ _ Hfs).
    + rewrite (compile_filter_raises self tg e Htg Hfs) in Hc. discriminate.
  - rewrite (compile_no_time_grain self Htg) in Hc. discriminate.
Qed.

Lemma join_five (a b c d e : string) :
  join nl [a; b; c; d; e] = (a ++ nl ++ b ++ nl ++ c) ++ nl ++ d ++ nl ++ e.
Proof.
  unfold join. cbn [String.concat]. rewrite !append_assoc. reflexivity.
Qed.

(** C3: without a time grain [compile] raises [MissingTimeGrain] and returns
    no string; with a time grain it returns a string whatever slices,
    measures and ratios there are, as soon as every filter renders. *)
Theorem compile_needs_only_time_grain (self : t) :
  (time_grain (components self) = None ->
   compile self = (Raise MissingTimeGrain, self))
  /\ (time_grain (components self) <> None ->
      Forall renders (filters (components self)) ->
      exists query, compile self = (Ok query, self)).
Proof.
  split.
  - apply compile_no_time_grain.
  - intros Htg Hfs.
    destruct (time_grain (components self)) as [tg|] eqn:E; [|contradiction].
    destruct (comprehension_ok Filter.to_sql _ Hfs) as [filter_sqls Hsqls].
    eexists. exact (compile_ok self tg filter_sqls E Hsqls).
Qed.

Lemma compile_needs_only_time_grain_run :
  compile (init "events") = (Raise MissingTimeGrain, init "events")
  /\ exists query,
       compile (snd (set_time_grain (TimeGrain.init "ts" "day" "day") (init "events")))
         = (Ok query, snd (set_time_grain (TimeGrain.init "ts" "day" "day") (init "events"))).
Proof.
  split.
  - apply (proj1 (compile_needs_only_time_grain (init "events"))). reflexivity.
  - apply (proj2 (compile_needs_only_time_grain
                    (snd (set_time_grain (TimeGrain.init "ts" "day" "day")
                            (init "events"))))).
    + discriminate.
    + constructor.
Defined.

(** C5: with a time grain set, the query ends with [GROUP BY 1, 2, ..., 1+N]
    and [ORDER BY 1 DESC, 2, ..., 1+N] for the [N] slices, whatever the
    measures and ratios; both lists have [1 + N] entries, and without
    slices the clauses are [GROUP BY 1] and [ORDER BY 1 DESC]. *)
Theorem compile_positions (self : t) :
  time_grain (components self) <> None ->
  Forall renders (filters (components self)) ->
  (exists head,
     compile self
       = (Ok (head ++ nl
                ++ "GROUP BY "
                ++ join ", " ("1" :: slice_positions (length (slices (components self))))
                ++ nl
                ++ "ORDER BY "
                ++ join ", " ("1 DESC" :: slice_positions (length (slices (components self))))),
          self))
  /\ length ("1" :: slice_positions (length (slices (components self))))
     = 1 + length (slices (components self))
  /\ length ("1 DESC" :: slice_positions (length (slices (components self))))
     = 1 + length (slices (components self))
  /\ (slices (components self) = [] ->
      exists head,
        compile self
          = (Ok (head ++ nl ++ "GROUP BY 1" ++ nl ++ "ORDER BY 1 DESC"), self)).
Proof.
  intros Htg Hfs.
  destruct (time_grain (components self)) as [tg|] eqn:E; [|contradiction].
  destruct (comprehension_ok Filter.to_sql _ Hfs) as [filter_sqls Hsqls].
  pose proof (compile_ok self tg filter_sqls E Hsqls) as Hc.
  rewrite join_five in Hc.
  repeat split.
  - eexists. exact Hc.
  - cbn [length]. unfold slice_positions. now rewrite length_map, length_seq.
  - cbn [length]. unfold slice_positions. now rewrite length_map, length_seq.
  - intros Hnil. rewrite Hnil in Hc. eexists. exact Hc.
Qed.

Lemma compile_positions_events :
  (exists head,
     compile events_builder
       = (Ok (head ++ nl
                ++ "GROUP BY "
                ++ join ", " ("1" :: slice_positions (length (slices (components events_builder))))
                ++ nl
                ++ "ORDER BY "
                ++ join ", " ("1 DESC" :: slice_positions (length (slices (components events_builder))))),
          events_builder))
  /\ length ("1" :: slice_positions (length (slices (components events_builder))))
     = 1 + length (slices (components events_builder))
  /\ length ("1 DESC" :: slice_positions (length (slices (components events_builder))))
     = 1 + length (slices (components events_builder))
  /\ (slices (components events_builder) = [] ->
      exists head,
        compile events_builder
          = (Ok (head ++ nl ++ "GROUP BY 1" ++ nl ++ "ORDER BY 1 DESC"), events_builder)).
Proof.
  apply (compile_positions events_builder).
  - discriminate.
  - repeat constructor. eexists. reflexivity.
Defined.

(** C6: a [compile] that returns leaves the builder as it was, and a second
    [compile] returns the same string. *)
Theorem compile_twice (self self' : t) (query : string) :
  compile self = (Ok query, self') ->
  self' = self
  /\ table self' = table self
  /\ components self' = components self
  /\ compile self' = (Ok query, self').
Proof.
  intros Hc. pose proof (compile_state self) as Hs.
  rewrite Hc in Hs. cbn [snd] in Hs. subst self'. now repeat split.
Qed.

Lemma compile_twice_events :
  events_builder = events_builder
  /\ table events_builder = table events_builder
  /\ components events_builder = components events_builder
  /\ compile events_builder = (Ok events_query, events_builder).
Proof.
  apply (compile_twice events_builder events_builder events_query). reflexivity.
Defined.

(** * Further properties of the code *)

(** ** Filters *)

(** X1: a custom filter renders as its expression, whatever its column and
    its value are, and raises exactly when the expression is [None] or
    empty. *)
Theorem custom_filter_to_sql (f : Filter.t) :
  Filter.filter_type f = "custom" ->
  (forall sql,
     Filter.to_sql f = Ok sql
     <-> Filter.custom_expression f = Some sql /\ sql <> EmptyString)
  /\ (Filter.to_sql f
        = Raise (ValueError
                   "Custom expression must be provided for 'custom' filter type.")
      <-> Filter.custom_expression f = None
          \/ Filter.custom_expression f = Some EmptyString).
Proof.
  intros Hkind. unfold Filter.to_sql. rewrite Hkind.
  change ("custom" =? "list") with false.
  change ("custom" =? "custom") with true. cbv iota.
  destruct (Filter.custom_expression f) as [[|ch expr]|]; split.
  - intros sql. split; [discriminate|]. intros [Hsome Hne]. congruence.
  - split; [now right | reflexivity].
  - intros sql. split.
    + intros Hok. injection Hok as <-. split; [reflexivity | discriminate].
    + intros [Hsome _]. congruence.
  - split; [discriminate | intros [H|H]; discriminate H].
  - intros sql. split; [discriminate | intros [H _]; discriminate H].
  - split; [now left | reflexivity].
Qed.

Lemma custom_filter_to_sql_run :
  let f := Filter.init "amount" (PAtom PNone) "custom" (Some "amount > 10") in
  (forall sql,
     Filter.to_sql f = Ok sql
     <-> Filter.custom_expression f = Some sql /\ sql <> EmptyString)
  /\ (Filter.to_sql f
        = Raise (ValueError
                   "Custom expression must be provided for 'custom' filter type.")
      <-> Filter.custom_expression f = None
          \/ Filter.custom_expression f = Some EmptyString).
Proof.
  exact (custom_filter_to_sql
           (Filter.init "amount" (PAtom PNone) "custom" (Some "amount > 10"))
           eq_refl).
Defined.

(** X2: a filter whose type is neither ["list"] nor ["custom"] raises
    [ValueError "Unsupported filter type."], whatever its other fields
    are; the comparison is on the exact string. *)
Theorem unsupported_filter_type (f : Filter.t) :
  Filter.filter_type f <> "list" ->
  Filter.filter_type f <> "custom" ->
  Filter.to_sql f = Raise (ValueError "Unsupported filter type.").
Proof.
  intros Hlist Hcustom. unfold Filter.to_sql.
  apply String.eqb_neq in Hlist, Hcustom. now rewrite Hlist, Hcustom.
Qed.

Lemma unsupported_filter_type_upper_case :
  Filter.to_sql (Filter.init "status" (PList [PStr "ok"]) "LIST" (Some "status = 'ok'"))
    = Raise (ValueError "Unsupported filter type.").
Proof.
  apply (unsupported_filter_type
           (Filter.init "status" (PList [PStr "ok"]) "LIST" (Some "status = 'ok'")));
    discriminate.
Defined.

Lemma quoted_ok_iff (v : pyatom) :
  (exists s, Filter.quoted v = Ok s)
  <-> (forall z, v = PInt z ->
         (N.of_nat (String.length (digits z)) <= int_max_str_digits)%N).
Proof.
  unfold Filter.quoted.
  destruct v as [|[|]|z|s]; cbn [format];
    try (split; [intros _ z' H; discriminate H | intros _; eexists; reflexivity]).
  destruct (N.ltb_spec int_max_str_digits (N.of_nat (String.length (digits z))))
    as [Hlt|Hle]; split.
  - intros [s H]. discriminate H.
  - intros H. specialize (H z eq_refl). lia.
  - intros _ z' [= <-]. exact Hle.
  - intros _. eexists; reflexivity.
Qed.

Lemma list_items_render (items : list pyatom) :
  (exists parts, comprehension Filter.quoted items = Ok parts)
  <-> (forall z, In (PInt z) items ->
         (N.of_nat (String.length (digits z)) <= int_max_str_digits)%N).
Proof.
  split.
  - intros [parts H]. apply comprehension_ok_inv in H.
    rewrite Forall_forall in H. intros z Hz.
    exact (proj1 (quoted_ok_iff (PInt z)) (H _ Hz) z eq_refl).
  - intros H. apply comprehension_ok, Forall_forall. intros v Hv.
    apply quoted_ok_iff. intros z ->. now apply H.
Qed.

(** X3: the filters that render are the list filters whose value is a
    [list] in which every [int] has at most [int_max_str_digits] digits,
    and the custom filters with a non-empty expression; every other filter
    raises. *)
Theorem renders_iff (f : Filter.t) :
  renders f
  <-> (Filter.filter_type f = "list"
       /\ isinstance_list (Filter.value f) = true
       /\ forall z, In (PInt z) (items_of (Filter.value f)) ->
            (N.of_nat (String.length (digits z)) <= int_max_str_digits)%N)
      \/ (Filter.filter_type f = "custom"
          /\ exists expr,
               Filter.custom_expression f = Some expr /\ expr <> EmptyString).
Proof.
  unfold renders, Filter.to_sql.
  destruct (String.eqb_spec (Filter.filter_type f) "list") as [Hl|Hl].
  - destruct (isinstance_list (Filter.value f)); cbn [negb]; split.
    + intros [sql H]. left. repeat split; [assumption|].
      apply list_items_render.
      destruct (comprehension Filter.quoted (items_of (Filter.value f)))
        as [parts|e]; [eexists; reflexivity | discriminate H].
    + intros [(_ & _ & Hitems)|[H _]].
      * apply list_items_render in Hitems as [parts ->]. eexists; reflexivity.
      * rewrite Hl in H. discriminate H.
    + intros [sql H]. discriminate H.
    + intros [(_ & H & _)|[H _]]; [discriminate H|].
      rewrite Hl in H. discriminate H.
  - destruct (String.eqb_spec (Filter.filter_type f) "custom") as [Hc|Hc].
    + destruct (Filter.custom_expression f) as [[|ch expr]|]; split.
      * intros [sql H]. discriminate H.
      * intros [[H _]|[_ [expr [H Hne]]]]; [contradiction|]. congruence.
      * intros _. right. split; [assumption|]. eexists. split; [reflexivity|discriminate].
      * intros _. eexists; reflexivity.
      * intros [sql H]. discriminate H.
      * intros [[H _]|[_ [expr [H _]]]]; [contradiction | discriminate H].
    + split.
      * intros [sql H]. discriminate H.
      * intros [[H _]|[H _]]; contradiction.
Qed.

(** X4: a list filter with the empty list renders an empty [IN ()] and does
    not raise, while a filter built from its column alone, with the default
    value [None] and the default type ["list"], raises. *)
Theorem list_filter_edge_values (c : string) (custom_expression : option string) :
  Filter.to_sql (Filter.init c (PList []) "list" custom_expression)
    = Ok (c ++ " IN ()" ++ nl)
  /\ Filter.to_sql (Filter.init c (PAtom PNone) "list" None)
    = Raise (ValueError "Value must be a list for 'list' filter type.").
Proof. split; reflexivity. Qed.

(** ** Compilation *)

Lemma comprehension_first_raise {A B : Type} (f : A -> result B)
    (good : list A) (bad : A) (rest : list A) (e : exn) :
  Forall (fun x => exists y, f x = Ok y) good ->
  f bad = Raise e ->
  comprehension f (good ++ bad :: rest)%list = Raise e.
Proof.
  intros Hgood Hbad.
  induction Hgood as [|x l [y Hy] _ IH]; cbn [app comprehension].
  - now rewrite Hbad.
  - now rewrite Hy, IH.
Qed.

Lemma comprehension_snoc {A B : Type} (f : A -> result B) (l : list A) (x : A)
    (ys : list B) (y : B) :
  comprehension f l = Ok ys ->
  f x = Ok y ->
  comprehension f (l ++ [x])%list = Ok (ys ++ [y])%list.
Proof.
  intros Hl Hx. revert ys Hl.
  induction l as [|a l IH]; intros ys; cbn [app comprehension].
  - intros [= <-]. now rewrite Hx.
  - destruct (f a) as [b|e]; [|discriminate].
    destruct (comprehension f l) as [bs|e]; [|discriminate].
    intros [= <-]. now rewrite (IH bs eq_refl).
Qed.

Lemma join_snoc (sep x : string) (l : list string) (y : string) :
  join sep (x :: l ++ [y])%list = join sep (x :: l) ++ sep ++ y.
Proof.
  revert x; induction l as [|z l IH]; intros x.
  - reflexivity.
  - cbn [app]. rewrite !join_cons, (IH z), !append_assoc. reflexivity.
Qed.

Lemma join_five_flat (a b c d e : string) :
  join nl [a; b; c; d; e] = a ++ nl ++ b ++ nl ++ c ++ nl ++ d ++ nl ++ e.
Proof. reflexivity. Qed.

(** X5: with a time grain set, [compile] raises the exception of the first
    filter, in insertion order, that does not render, and leaves the
    builder as it was; the filters after it are not looked at. *)
Theorem compile_first_failing_filter (self : t) (good : list Filter.t)
    (bad : Filter.t) (rest : list Filter.t) (e : exn) :
  time_grain (components self) <> None ->
  filters (components self) = (good ++ bad :: rest)%list ->
  Forall renders good ->
  Filter.to_sql bad = Raise e ->
  compile self = (Raise e, self).
Proof.
  intros Htg Hfs Hgood Hbad.
  destruct (time_grain (components self)) as [tg|] eqn:E; [|contradiction].
  apply (compile_filter_raises self tg e E).
  rewrite Hfs. now apply comprehension_first_raise.
Qed.

Lemma compile_first_failing_filter_run :
  let self :=
    snd ((add_filter (Filter.init "kind" (PAtom (PStr "a")) "range" None) ;;
          add_filter (Filter.init "amount" (PAtom PNone) "custom" None))
           events_builder) in
  compile self = (Raise (ValueError "Unsupported filter type."), self).
Proof.
  apply (compile_first_failing_filter _
           [Filter.init "status" (PList [PStr "ok"]) "list" None]
           (Filter.init "kind" (PAtom (PStr "a")) "range" None)
           [Filter.init "amount" (PAtom PNone) "custom" None]).
  - discriminate.
  - reflexivity.
  - repeat constructor. eexists. reflexivity.
  - reflexivity.
Defined.

(** X6: a new builder on which only the time grain was set compiles to the
    degenerate query: the time grain alone in the SELECT list, [WHERE TRUE],
    [GROUP BY 1] and [ORDER BY 1 DESC]. *)
Theorem compile_time_grain_only (table_name : string) (tg : TimeGrain.t) :
  (set_time_grain tg ;; compile) (init table_name)
    = (Ok ("SELECT" ++ nl ++ "  " ++ TimeGrain.to_sql tg ++ nl
             ++ "FROM " ++ table_name ++ nl
             ++ "WHERE TRUE" ++ nl
             ++ "GROUP BY 1" ++ nl
             ++ "ORDER BY 1 DESC"),
       with_components (with_time_grain (Some tg)) (init table_name)).
Proof.
  unfold bind, set_time_grain, modify.
  rewrite (compile_ok (with_components (with_time_grain (Some tg)) (init table_name))
             tg [] eq_refl eq_refl), join_five_flat.
  cbn [init with_components with_time_grain components table slices measures
       ratios map app length slice_positions seq join String.concat].
  rewrite !append_assoc. reflexivity.
Qed.

(** X7: after [set_table_name], the query differs from the one before in
    the table of its FROM clause only. *)
Theorem compile_after_set_table_name (self : t) (new_table_name : string) :
  time_grain (components self) <> None ->
  Forall renders (filters (components self)) ->
  exists select_clause rest,
    compile self
      = (Ok (select_clause ++ nl ++ "FROM " ++ table self ++ nl ++ rest), self)
    /\ (set_table_name new_table_name ;; compile) self
      = (Ok (select_clause ++ nl ++ "FROM " ++ new_table_name ++ nl ++ rest),
         with_table new_table_name self).
Proof.
  intros Htg Hfs.
  destruct (time_grain (components self)) as [tg|] eqn:E; [|contradiction].
  destruct (comprehension_ok Filter.to_sql _ Hfs) as [filter_sqls Hsqls].
  eexists _, _. split.
  - rewrite (compile_ok self tg filter_sqls E Hsqls), join_five_flat.
    reflexivity.
  - unfold bind, set_table_name, modify.
    rewrite (compile_ok (with_table new_table_name self) tg filter_sqls E Hsqls),
      join_five_flat.
    reflexivity.
Qed.

Lemma compile_after_set_table_name_events :
  exists select_clause rest,
    compile events_builder
      = (Ok (select_clause ++ nl ++ "FROM " ++ table events_builder ++ nl ++ rest),
         events_builder)
    /\ (set_table_name "archive" ;; compile) events_builder
      = (Ok (select_clause ++ nl ++ "FROM " ++ "archive" ++ nl ++ rest),
         with_table "archive" events_builder).
Proof.
  apply (compile_after_set_table_name events_builder "archive").
  - discriminate.
  - repeat constructor. eexists. reflexivity.
Defined.

(** X8: adding a filter that renders as [sql] extends the WHERE clause of
    the query by [AND], a line break and [sql], after the filters that were
    there, and changes nothing else in the query. *)
Theorem compile_after_add_filter (self : t) (f : Filter.t) (sql : string) :
  time_grain (components self) <> None ->
  Forall renders (filters (components self)) ->
  Filter.to_sql f = Ok sql ->
  exists select_from filter_sqls group_order,
    comprehension Filter.to_sql (filters (components self)) = Ok filter_sqls
    /\ compile self
      = (Ok (select_from ++ nl
               ++ ("WHERE " ++ join (" AND" ++ nl ++ "  ") ("TRUE" :: filter_sqls))
               ++ nl ++ group_order),
         self)
    /\ (add_filter f ;; compile) self
      = (Ok (select_from ++ nl
               ++ ("WHERE " ++ join (" AND" ++ nl ++ "  ") ("TRUE" :: filter_sqls)
                     ++ " AND" ++ nl ++ "  " ++ sql)
               ++ nl ++ group_order),
         snd (add_filter f self)).
Proof.
  intros Htg Hfs Hf.
  destruct (time_grain (components self)) as [tg|] eqn:E; [|contradiction].
  destruct (comprehension_ok Filter.to_sql _ Hfs) as [filter_sqls Hsqls].
  exists ("SELECT" ++ nl ++ "  "
            ++ join ("," ++ nl ++ "  ")
                 (TimeGrain.to_sql tg
                    :: map Slice.to_sql (slices (components self))
                    ++ map Measure.to_sql (measures (components self))
                    ++ map Ratio.to_sql (ratios (components self)))%list
            ++ nl ++ "FROM " ++ table self),
    filter_sqls,
    ("GROUP BY "
       ++ join ", " ("1" :: slice_positions (length (slices (components self))))
       ++ nl ++ "ORDER BY "
       ++ join ", " ("1 DESC" :: slice_positions (length (slices (components self))))).
  split; [exact Hsqls|]. split.
  - rewrite (compile_ok self tg filter_sqls E Hsqls), join_five_flat.
    rewrite !append_assoc. reflexivity.
  - unfold bind, add_filter, modify. cbn [snd].
    rewrite (compile_ok
               (with_components
                  (fun c => with_filters (filters c ++ [f])%list c) self)
               tg (filter_sqls ++ [sql])%list E
               (comprehension_snoc _ _ _ _ _ Hsqls Hf)),
      join_five_flat.
    rewrite (join_snoc (" AND" ++ nl ++ "  ") "TRUE" filter_sqls sql).
    cbn [with_components with_filters components table slices measures ratios].
    rewrite !append_assoc. reflexivity.
Qed.

Lemma compile_after_add_filter_events :
  let f := Filter.init "amount" (PAtom PNone) "custom" (Some "amount > 10") in
  exists select_from filter_sqls group_order,
    comprehension Filter.to_sql (filters (components events_builder)) = Ok filter_sqls
    /\ compile events_builder
      = (Ok (select_from ++ nl
               ++ ("WHERE " ++ join (" AND" ++ nl ++ "  ") ("TRUE" :: filter_sqls))
               ++ nl ++ group_order),
         events_builder)
    /\ (add_filter f ;; compile) events_builder
      = (Ok (select_from ++ nl
               ++ ("WHERE " ++ join (" AND" ++ nl ++ "  ") ("TRUE" :: filter_sqls)
                     ++ " AND" ++ nl ++ "  " ++ "amount > 10")
               ++ nl ++ group_order),
         snd (add_filter f events_builder)).
Proof.
  apply (compile_after_add_filter events_builder
           (Filter.init "amount" (PAtom PNone) "custom" (Some "amount > 10"))
           "amount > 10").
  - discriminate.
  - repeat constructor. eexists. reflexivity.
  - reflexivity.
Defined.

(** X9: when the time grain carries another label, the query compiled after
    [remove_component] lists the time grain and the slices, measures and
    ratios with another label, in their order, and numbers the remaining
    slices [2, 3, ...] without gap in GROUP BY and ORDER BY; table and WHERE
    clause are those of before. *)
Theorem compile_after_remove_component (self : t) (nice_name : string)
    (tg : TimeGrain.t) (filter_sqls : list string) :
  time_grain (components self) = Some tg ->
  TimeGrain.nice_name tg <> nice_name ->
  comprehension Filter.to_sql (filters (components self)) = Ok filter_sqls ->
  let kept_slices :=
    filter (fun c => negb (Slice.nice_name c =? nice_name))
           (slices (components self)) in
  let kept_measures :=
    filter (fun c => negb (Measure.nice_name c =? nice_name))
           (measures (components self)) in
  let kept_ratios :=
    filter (fun c => negb (Ratio.nice_name c =? nice_name))
           (ratios (components self)) in
  (remove_component nice_name ;; compile) self
    = (Ok (join nl
             [ "SELECT" ++ nl ++ "  "
                 ++ join ("," ++ nl ++ "  ")
                      (TimeGrain.to_sql tg
                         :: map Slice.to_sql kept_slices
                         ++ map Measure.to_sql kept_measures
                         ++ map Ratio.to_sql kept_ratios)%list;
               "FROM " ++ table self;
               "WHERE " ++ join (" AND" ++ nl ++ "  ") ("TRUE" :: filter_sqls);
               "GROUP BY "
                 ++ join ", " ("1" :: slice_positions (length kept_slices));
               "ORDER BY "
                 ++ join ", " ("1 DESC" :: slice_positions (length kept_slices)) ]),
       snd (remove_component nice_name self)).
Proof.
  intros Htg Hname Hsqls kept_slices kept_measures kept_ratios.
  assert (Hother : forall tg', time_grain (components self) = Some tg' ->
                               TimeGrain.nice_name tg' <> nice_name).
  { intros tg' Htg'. rewrite Htg in Htg'. now injection Htg' as <-. }
  unfold bind. rewrite (remove_component_lists nice_name self Hother). cbn [snd].
  subst kept_slices kept_measures kept_ratios.
  match goal with
  | |- compile ?self' = _ => rewrite (compile_ok self' tg filter_sqls Htg Hsqls)
  end.
  reflexivity.
Qed.

Lemma compile_after_remove_component_events :
  (remove_component "country" ;; compile) events_builder
    = (Ok ("SELECT" ++ nl
             ++ "  date_trunc('day', ts) AS " ++ dq ++ "day" ++ dq ++ "," ++ nl
             ++ "  count(*) AS " ++ dq ++ "total" ++ dq ++ nl
             ++ "FROM events" ++ nl
             ++ "WHERE TRUE AND" ++ nl
             ++ "  status IN ('ok')" ++ nl
             ++ nl
             ++ "GROUP BY 1" ++ nl
             ++ "ORDER BY 1 DESC"),
       snd (remove_component "country" events_builder)).
Proof.
  apply (compile_after_remove_component events_builder "country"
           (TimeGrain.init "ts" "day" "day") ["status IN ('ok')" ++ nl]).
  - reflexivity.
  - discriminate.
  - reflexivity.
Defined.

(** X10: removing the label of the time grain that is set leaves the
    builder without time grain, so that the next [compile] raises
    [MissingTimeGrain]. *)
Theorem compile_after_removing_time_grain (self : t) (tg : TimeGrain.t) :
  time_grain (components self) = Some tg ->
  (remove_component (TimeGrain.nice_name tg) ;; compile) self
    = (Raise MissingTimeGrain, with_components (with_time_grain None) self).
Proof.
  intros Htg. unfold bind.
  rewrite (remove_component_time_grain _ self tg Htg eq_refl).
  now apply compile_no_time_grain.
Qed.

Lemma compile_after_removing_time_grain_events :
  (remove_component "day" ;; compile) events_builder
    = (Raise MissingTimeGrain,
       with_components (with_time_grain None) events_builder).
Proof.
  apply (compile_after_removing_time_grain events_builder
           (TimeGrain.init "ts" "day" "day")).
  reflexivity.
Defined.

(** ** The mutators *)

(** X11: a second [set_time_grain] replaces the time grain of the first,
    and a second [set_table_name] the table of the first: the builder holds
    one time grain and one table, the last ones set. *)
Theorem setters_overwrite (first second : TimeGrain.t)
    (first_name second_name : string) (self : t) :
  (set_time_grain first ;; set_time_grain second) self
    = set_time_grain second self
  /\ (set_table_name first_name ;; set_table_name second_name) self
    = set_table_name second_name self
  /\ time_grain (components (snd ((set_time_grain first ;; set_time_grain second) self)))
    = Some second
  /\ table (snd ((set_table_name first_name ;; set_table_name second_name) self))
    = second_name.
Proof. repeat split. Qed.

(** X12: the setters and the four [add_] methods write different parts of
    the builder: called one after the other on different parts, they leave
    the same builder in either order. *)
Theorem mutators_commute (self : t) (new_table_name : string) (tg : TimeGrain.t)
    (slice : Slice.t) (measure : Measure.t) (ratio : Ratio.t) (filter : Filter.t) :
  (add_slice slice ;; add_measure measure) self
    = (add_measure measure ;; add_slice slice) self
  /\ (add_slice slice ;; add_ratio ratio) self
    = (add_ratio ratio ;; add_slice slice) self
  /\ (add_slice slice ;; add_filter filter) self
    = (add_filter filter ;; add_slice slice) self
  /\ (add_measure measure ;; add_ratio ratio) self
    = (add_ratio ratio ;; add_measure measure) self
  /\ (add_measure measure ;; add_filter filter) self
    = (add_filter filter ;; add_measure measure) self
  /\ (add_ratio ratio ;; add_filter filter) self
    = (add_filter filter ;; add_ratio ratio) self
  /\ (set_time_grain tg ;; add_slice slice) self
    = (add_slice slice ;; set_time_grain tg) self
  /\ (set_time_grain tg ;; add_measure measure) self
    = (add_measure measure ;; set_time_grain tg) self
  /\ (set_time_grain tg ;; add_ratio ratio) self
    = (add_ratio ratio ;; set_time_grain tg) self
  /\ (set_time_grain tg ;; add_filter filter) self
    = (add_filter filter ;; set_time_grain tg) self
  /\ (set_table_name new_table_name ;; set_time_grain tg) self
    = (set_time_grain tg ;; set_table_name new_table_name) self
  /\ (set_table_name new_table_name ;; add_slice slice) self
    = (add_slice slice ;; set_table_name new_table_name) self
  /\ (set_table_name new_table_name ;; add_measure measure) self
    = (add_measure measure ;; set_table_name new_table_name) self
  /\ (set_table_name new_table_name ;; add_ratio ratio) self
    = (add_ratio ratio ;; set_table_name new_table_name) self
  /\ (set_table_name new_table_name ;; add_filter filter) self
    = (add_filter filter ;; set_table_name new_table_name) self.
Proof.
  unfold add_measure, add_slice, add_ratio, add_filter, set_time_grain,
    set_table_name, bind, get, modify.
  cbn [with_components with_table with_slices with_measures with_ratios
       with_filters with_time_grain components measures].
  destruct (measures (components self)); repeat split.
Qed.

(** ** Removal by label *)

Lemma filter_other_labels {A : Type} (label : A -> string) (nice_name : string)
    (l : list A) :
  Forall (fun c => label c <> nice_name)
         (filter (fun c => negb (label c =? nice_name)) l).
Proof.
  apply Forall_forall. intros c Hc. apply filter_In in Hc as [_ Hc].
  now apply String.eqb_neq, negb_true_iff.
Qed.

Lemma In_filter_other_labels {A : Type} (label : A -> string) (nice_name : string)
    (l : list A) (c : A) :
  In c (filter (fun c => negb (label c =? nice_name)) l)
  <-> In c l /\ label c <> nice_name.
Proof.
  rewrite filter_In, negb_true_iff, String.eqb_neq. reflexivity.
Qed.

(** The two ways through [remove_component]. *)
Lemma remove_component_cases (nice_name : string) (self : t) :
  (exists tg,
     time_grain (components self) = Some tg
     /\ TimeGrain.nice_name tg = nice_name
     /\ remove_component nice_name self
        = (Ok tt, with_components (with_time_grain None) self))
  \/ ((forall tg, time_grain (components self) = Some tg ->
                  TimeGrain.nice_name tg <> nice_name)
      /\ remove_component nice_name self
         = (Ok tt,
            {| table := table self;
               components :=
                 {| time_grain := time_grain (components self);
                    slices :=
                      filter (fun c => negb (Slice.nice_name c =? nice_name))
                             (slices (components self));
                    measures :=
                      filter (fun c => negb (Measure.nice_name c =? nice_name))
                             (measures (components self));
                    ratios :=
                      filter (fun c => negb (Ratio.nice_name c =? nice_name))
                             (ratios (components self));
                    filters := filters (components self) |} |})).
Proof.
  destruct (time_grain (components self)) as [tg|] eqn:E.
  - destruct (String.eqb_spec (TimeGrain.nice_name tg) nice_name) as [Heq|Hne].
    + left. exists tg. repeat split; [assumption|].
      now apply (remove_component_time_grain nice_name self tg).
    + right.
      assert (Hother : forall tg', time_grain (components self) = Some tg' ->
                                   TimeGrain.nice_name tg' <> nice_name).
      { intros tg' Htg'. rewrite E in Htg'. now injection Htg' as <-. }
      split; [intros tg' [= <-]; assumption|].
      rewrite (remove_component_lists nice_name self Hother), E. reflexivity.
  - right.
    assert (Hother : forall tg', time_grain (components self) = Some tg' ->
                                 TimeGrain.nice_name tg' <> nice_name).
    { intros tg' Htg'. rewrite E in Htg'. discriminate. }
    split; [discriminate|].
    rewrite (remove_component_lists nice_name self Hother), E. reflexivity.
Qed.

Lemma remove_component_lists_unlabelled (nice_name : string) (self : t) :
  (forall tg, time_grain (components self) = Some tg ->
              TimeGrain.nice_name tg <> nice_name) ->
  unlabelled nice_name (snd (remove_component nice_name self)).
Proof.
  intros Hother. rewrite (remove_component_lists nice_name self Hother).
  unfold unlabelled. cbn [snd components time_grain slices measures ratios].
  repeat split; [assumption | apply filter_other_labels ..].
Qed.

Lemma unlabelled_no_op (nice_name : string) (self : t) :
  unlabelled nice_name self ->
  remove_component nice_name self = (Ok tt, self).
Proof.
  intros (Htg & Hs & Hm & Hr). now apply remove_component_no_match.
Qed.

(** X13: [remove_component] never raises; it leaves the table and the
    filters as they are, adds no slice, measure or ratio, and leaves the
    time grain as it is or clears it. *)
Theorem remove_component_frame (nice_name : string) (self : t) :
  fst (remove_component nice_name self) = Ok tt
  /\ table (snd (remove_component nice_name self)) = table self
  /\ filters (components (snd (remove_component nice_name self)))
     = filters (components self)
  /\ incl (slices (components (snd (remove_component nice_name self))))
          (slices (components self))
  /\ incl (measures (components (snd (remove_component nice_name self))))
          (measures (components self))
  /\ incl (ratios (components (snd (remove_component nice_name self))))
          (ratios (components self))
  /\ (time_grain (components (snd (remove_component nice_name self)))
        = time_grain (components self)
      \/ time_grain (components (snd (remove_component nice_name self))) = None).
Proof.
  destruct (remove_component_cases nice_name self)
    as [(tg & Htg & Hname & ->)|[Hother ->]];
    cbn [fst snd with_components with_time_grain table components filters slices
         measures ratios time_grain].
  - repeat split; try apply incl_refl. now right.
  - repeat split; try apply incl_filter. now left.
Qed.

(** X14: when the time grain is absent or carries another label, one
    [remove_component] keeps exactly the slices, measures and ratios with
    another label, so that nothing carries the label afterwards, and a
    second call with the same label changes nothing. *)
Theorem remove_component_exact (nice_name : string) (self : t) :
  (forall tg, time_grain (components self) = Some tg ->
              TimeGrain.nice_name tg <> nice_name) ->
  unlabelled nice_name (snd (remove_component nice_name self))
  /\ (forall c,
        In c (slices (components (snd (remove_component nice_name self))))
        <-> In c (slices (components self)) /\ Slice.nice_name c <> nice_name)
  /\ (forall c,
        In c (measures (components (snd (remove_component nice_name self))))
        <-> In c (measures (components self)) /\ Measure.nice_name c <> nice_name)
  /\ (forall c,
        In c (ratios (components (snd (remove_component nice_name self))))
        <-> In c (ratios (components self)) /\ Ratio.nice_name c <> nice_name)
  /\ (remove_component nice_name ;; remove_component nice_name) self
     = remove_component nice_name self.
Proof.
  intros Hother.
  pose proof (remove_component_lists_unlabelled nice_name self Hother) as Hun.
  pose proof (unlabelled_no_op nice_name _ Hun) as Hnoop.
  pose proof (remove_component_lists nice_name self Hother) as Hrm.
  split; [exact Hun|]. split; [|split; [|split]].
  - intros c. rewrite Hrm. cbn [snd components slices].
    apply (In_filter_other_labels Slice.nice_name).
  - intros c. rewrite Hrm. cbn [snd components measures].
    apply (In_filter_other_labels Measure.nice_name).
  - intros c. rewrite Hrm. cbn [snd components ratios].
    apply (In_filter_other_labels Ratio.nice_name).
  - unfold bind. rewrite Hrm in Hnoop |- *. exact Hnoop.
Qed.

Lemma remove_component_exact_events :
  unlabelled "country" (snd (remove_component "country" events_builder))
  /\ (forall c,
        In c (slices (components (snd (remove_component "country" events_builder))))
        <-> In c (slices (components events_builder)) /\ Slice.nice_name c <> "country")
  /\ (forall c,
        In c (measures (components (snd (remove_component "country" events_builder))))
        <-> In c (measures (components events_builder))
            /\ Measure.nice_name c <> "country")
  /\ (forall c,
        In c (ratios (components (snd (remove_component "country" events_builder))))
        <-> In c (ratios (components events_builder)) /\ Ratio.nice_name c <> "country")
  /\ (remove_component "country" ;; remove_component "country") events_builder
     = remove_component "country" events_builder.
Proof.
  apply (remove_component_exact "country" events_builder).
  intros tg Htg. injection Htg as <-. discriminate.
Defined.

(** X15: whatever the builder holds, after two calls of [remove_component]
    with a label nothing that the method looks at carries the label: not
    the time grain, no slice, no measure and no ratio; a third call changes
    nothing. *)
Theorem remove_component_twice (nice_name : string) (self : t) :
  unlabelled nice_name
    (snd ((remove_component nice_name ;; remove_component nice_name) self))
  /\ (remove_component nice_name ;; remove_component nice_name ;;
      remove_component nice_name) self
     = (remove_component nice_name ;; remove_component nice_name) self.
Proof.
  assert (Hun : unlabelled nice_name
            (snd ((remove_component nice_name ;; remove_component nice_name) self))).
  { unfold bind at 1.
    destruct (remove_component_cases nice_name self)
      as [(tg & Htg & Hname & ->)|[Hother Hrm]].
    - apply remove_component_lists_unlabelled. discriminate.
    - pose proof (remove_component_lists_unlabelled nice_name self Hother) as Hun.
      rewrite (surjective_pairing (remove_component nice_name self)) at 1.
      rewrite Hrm at 1. cbn [fst].
      now rewrite (unlabelled_no_op nice_name _ Hun). }
  split; [exact Hun|].
  pose proof (unlabelled_no_op nice_name _ Hun) as Hnoop.
  unfold bind in *.
  destruct (remove_component nice_name self) as [[[]|e] self1]; [|reflexivity].
  destruct (remove_component nice_name self1) as [[[]|e] self2]; [|reflexivity].
  exact Hnoop.
Qed.

(** ** Sequences of method calls *)

Lemma run_call_filters (c : call) (self : t) :
  filters (components (run_call c self))
    = (filters (components self) ++ filters_added [c])%list.
Proof.
  destruct c; cbn [run_call filters_added flat_map];
    rewrite ?app_nil_r; try reflexivity.
  - unfold add_measure, bind, get.
    destruct (measures (components self)); reflexivity.
  - destruct (remove_component_cases nice_name self)
      as [(tg & _ & _ & ->)|[_ ->]]; reflexivity.
  - now rewrite compile_state.
Qed.

Lemma run_calls_filters (cs : list call) (self : t) :
  filters (components (run_calls cs self))
    = (filters (components self) ++ filters_added cs)%list.
Proof.
  unfold run_calls. revert self.
  induction cs as [|c cs IH]; intros self; cbn [fold_left].
  - cbn [filters_added flat_map]. now rewrite app_nil_r.
  - rewrite IH, run_call_filters. unfold filters_added. cbn [flat_map].
    now rewrite app_nil_r, <- app_assoc.
Qed.

Lemma run_call_time_grain_none (c : call) (self : t) :
  time_grain (components self) = None ->
  (forall tg, c <> SetTimeGrain tg) ->
  time_grain (components (run_call c self)) = None.
Proof.
  intros Hnone Hc.
  destruct c as [|tg0| | | | | |]; cbn [run_call]; try exact Hnone.
  - now destruct (Hc tg0).
  - unfold add_measure, bind, get.
    destruct (measures (components self)); exact Hnone.
  - destruct (remove_component_cases nice_name self)
      as [(tg & _ & _ & ->)|[_ ->]]; [reflexivity | exact Hnone].
  - now rewrite compile_state.
Qed.

(** X16: whatever methods are called, the filters of the builder are those
    it had, followed by the arguments of the [add_filter] calls in call
    order: no method removes, replaces or reorders a filter. *)
Theorem filters_only_grow (cs : list call) (self : t) :
  filters (components (run_calls cs self))
    = (filters (components self) ++ filters_added cs)%list.
Proof. apply run_calls_filters. Qed.

(** X17: once the builder holds a filter that does not render, [compile]
    raises after every further sequence of method calls. *)
Theorem failing_filter_is_permanent (cs : list call) (self : t) (f : Filter.t) :
  In f (filters (components self)) ->
  ~ renders f ->
  exists e, compile (run_calls cs self) = (Raise e, run_calls cs self).
Proof.
  intros Hin Hbad.
  pose proof (compile_state (run_calls cs self)) as Hstate.
  destruct (compile (run_calls cs self)) as [[query|e] self'] eqn:Hc;
    cbn [snd] in Hstate; subst self'.
  - exfalso. apply Hbad.
    destruct (compile_ok_inv _ _ _ Hc) as [_ Hall].
    rewrite Forall_forall in Hall. apply Hall.
    rewrite run_calls_filters. apply in_or_app. now left.
  - now exists e.
Qed.

Lemma failing_filter_is_permanent_run :
  let bad := Filter.init "status" (PTuple [PStr "ok"]) "list" None in
  let cs := [RemoveComponent "status"; SetTableName "archive";
             AddFilter (Filter.init "status" (PList [PStr "ok"]) "list" None);
             SetTimeGrain (TimeGrain.init "ts" "month" "month")] in
  exists e,
    compile (run_calls cs (snd (add_filter bad events_builder)))
      = (Raise e, run_calls cs (snd (add_filter bad events_builder))).
Proof.
  apply (failing_filter_is_permanent _ _
           (Filter.init "status" (PTuple [PStr "ok"]) "list" None)).
  - right. left. reflexivity.
  - intros [sql H]. discriminate H.
Defined.

(** X18: a builder without time grain stays without one as long as
    [set_time_grain] is not called, so [compile] raises [MissingTimeGrain]
    after every sequence of the other methods. *)
Theorem time_grain_needs_setter (cs : list call) (self : t) :
  time_grain (components self) = None ->
  (forall tg, ~ In (SetTimeGrain tg) cs) ->
  compile (run_calls cs self) = (Raise MissingTimeGrain, run_calls cs self).
Proof.
  intros Hnone Hcs. apply compile_no_time_grain.
  unfold run_calls. revert self Hnone.
  induction cs as [|c cs IH]; intros self Hnone; cbn [fold_left].
  - exact Hnone.
  - apply IH.
    + intros tg Hin. apply (Hcs tg). now right.
    + apply run_call_time_grain_none; [exact Hnone|].
      intros tg ->. apply (Hcs tg). now left.
Qed.

Lemma time_grain_needs_setter_run :
  let cs := [AddSlice (Slice.init "country" None);
             AddMeasure (Measure.init "count(*)" "total");
             RemoveComponent "country"; Compile; SetTableName "archive"] in
  compile (run_calls cs (init "events"))
    = (Raise MissingTimeGrain, run_calls cs (init "events")).
Proof.
  apply (time_grain_needs_setter _ (init "events")).
  - reflexivity.
  - intros tg [H|[H|[H|[H|[H|[]]]]]]; discriminate H.
Defined.

Lemma filter_comm {A : Type} (p q : A -> bool) (l : list A) :
  filter p (filter q l) = filter q (filter p l).
Proof.
  induction l as [|x l IH]; [reflexivity|]. cbn [filter].
  destruct (p x) eqn:Hp, (q x) eqn:Hq; cbn [filter]; rewrite ?Hp, ?Hq, IH;
    reflexivity.
Qed.

(** X19: two calls of [remove_component] leave the same builder in either
    order, whatever the two labels and whatever the builder holds. *)
Theorem remove_component_commute (a b : string) (self : t) :
  (remove_component a ;; remove_component b) self
    = (remove_component b ;; remove_component a) self.
Proof.
  destruct self as [tbl [[tg|] ss ms rs fs]];
    unfold bind, remove_component, get, remove_from_lists, bind, modify;
    cbv [with_components with_time_grain with_slices with_measures with_ratios
         components time_grain slices measures ratios filters table].
  - destruct (TimeGrain.nice_name tg =? a) eqn:Ha,
             (TimeGrain.nice_name tg =? b) eqn:Hb;
      cbv [with_components with_time_grain with_slices with_measures with_ratios
           components time_grain slices measures ratios filters table];
      rewrite ?Ha, ?Hb;
      cbv [with_components with_time_grain with_slices with_measures with_ratios
           components time_grain slices measures ratios filters table].
    + apply String.eqb_eq in Ha, Hb. subst a b. reflexivity.
    + reflexivity.
    + reflexivity.
    + now rewrite (filter_comm _ _ ss), (filter_comm _ _ ms), (filter_comm _ _ rs).
  - now rewrite (filter_comm _ _ ss), (filter_comm _ _ ms), (filter_comm _ _ rs).
Qed.

Lemma filter_other_labels_snoc {A : Type} (label : A -> string)
    (nice_name : string) (l : list A) (c : A) :
  label c = nice_name ->
  filter (fun c => negb (label c =? nice_name)) (l ++ [c])%list
    = filter (fun c => negb (label c =? nice_name)) l.
Proof.
  intros Hc. rewrite filter_app. cbn [filter].
  now rewrite Hc, String.eqb_refl, app_nil_r.
Qed.

(** X20: when the time grain is absent or carries another label, adding a
    slice, a measure or a ratio with a label and then removing that label
    leaves the builder that the removal alone leaves: the added entry is
    gone, with the entries of the same label that were there. *)
Theorem add_then_remove (self : t) (nice_name : string) (slice : Slice.t)
    (measure : Measure.t) (ratio : Ratio.t) :
  (forall tg, time_grain (components self) = Some tg ->
              TimeGrain.nice_name tg <> nice_name) ->
  Slice.nice_name slice = nice_name ->
  Measure.nice_name measure = nice_name ->
  Ratio.nice_name ratio = nice_name ->
  (add_slice slice ;; remove_component nice_name) self
    = remove_component nice_name self
  /\ (add_measure measure ;; remove_component nice_name) self
    = remove_component nice_name self
  /\ (add_ratio ratio ;; remove_component nice_name) self
    = remove_component nice_name self.
Proof.
  intros Hother Hs Hm Hr.
  rewrite (remove_component_lists nice_name self Hother).
  unfold add_measure, add_slice, add_ratio, bind, get, modify.
  repeat split.
  - rewrite (remove_component_lists nice_name
               (with_components
                  (fun c => with_slices (slices c ++ [slice])%list c) self) Hother).
    cbn [with_components with_slices components table time_grain slices measures
         ratios filters].
    now rewrite (filter_other_labels_snoc Slice.nice_name _ _ _ Hs).
  - assert (Happend :
      remove_component nice_name
        (with_components
           (fun c => with_measures (measures c ++ [measure])%list c) self)
      = (Ok tt,
         {| table := table self;
            components :=
              {| time_grain := time_grain (components self);
                 slices :=
                   filter (fun c => negb (Slice.nice_name c =? nice_name))
                          (slices (components self));
                 measures :=
                   filter (fun c => negb (Measure.nice_name c =? nice_name))
                          (measures (components self));
                 ratios :=
                   filter (fun c => negb (Ratio.nice_name c =? nice_name))
                          (ratios (components self));
                 filters := filters (components self) |} |})).
    { rewrite (remove_component_lists nice_name
                 (with_components
                    (fun c => with_measures (measures c ++ [measure])%list c) self)
                 Hother).
      cbn [with_components with_measures components table time_grain slices
           measures ratios filters].
      now rewrite (filter_other_labels_snoc Measure.nice_name _ _ _ Hm). }
    destruct (measures (components self)); exact Happend.
  - rewrite (remove_component_lists nice_name
               (with_components
                  (fun c => with_ratios (ratios c ++ [ratio])%list c) self) Hother).
    cbn [with_components with_ratios components table time_grain slices measures
         ratios filters].
    now rewrite (filter_other_labels_snoc Ratio.nice_name _ _ _ Hr).
Qed.

Lemma add_then_remove_events :
  (add_slice (Slice.init "country" (Some "total")) ;; remove_component "total")
    events_builder
    = remove_component "total" events_builder
  /\ (add_measure (Measure.init "sum(amount)" "total") ;; remove_component "total")
       events_builder
    = remove_component "total" events_builder
  /\ (add_ratio (Ratio.init "sum(a)" "sum(b)" "total") ;; remove_component "total")
       events_builder
    = remove_component "total" events_builder.
Proof.
  apply (add_then_remove events_builder "total"
           (Slice.init "country" (Some "total"))
           (Measure.init "sum(amount)" "total")
           (Ratio.init "sum(a)" "sum(b)" "total")).
  - intros tg Htg. injection Htg as <-. discriminate.
  - reflexivity.
  - reflexivity.
  - reflexivity.
Defined.

(** ** Slices *)

(** X21: a slice on a non-empty column never has an empty label, whatever
    label it is given; a slice given a non-empty label has that label and
    renders as [column AS "label"], whatever its column is. *)
Theorem slice_label_not_empty (column : string) :
  (forall nice_name,
     column <> EmptyString ->
     Slice.nice_name (Slice.init column nice_name) <> EmptyString)
  /\ (forall label,
        label <> EmptyString ->
        Slice.nice_name (Slice.init column (Some label)) = label
        /\ Slice.to_sql (Slice.init column (Some label))
           = column ++ " AS " ++ dq ++ label ++ dq).
Proof.
  split.
  - intros nice_name Hcolumn.
    destruct nice_name as [[|ch label]|]; cbn; [assumption | discriminate | assumption].
  - intros label Hlabel.
    destruct label as [|ch label]; [contradiction | split; reflexivity].
Qed.

Lemma slice_label_not_empty_country :
  Slice.nice_name (Slice.init "country" (Some EmptyString)) <> EmptyString
  /\ Slice.nice_name (Slice.init EmptyString (Some "nation")) = "nation"
  /\ Slice.to_sql (Slice.init EmptyString (Some "nation"))
     = EmptyString ++ " AS " ++ dq ++ "nation" ++ dq.
Proof.
  split.
  - apply (proj1 (slice_label_not_empty "country") (Some EmptyString)).
    discriminate.
  - apply (proj2 (slice_label_not_empty EmptyString) "nation"). discriminate.
Defined.
